(** * rv8: the 16550 UART device of the emulator (src/emu/device-uart.h)

    A shallow embedding of [console_thread] and [uart_mmio_device]:
    the register file, the banking by LCR.DLAB, the byte queue shared
    with the console thread, and the interrupt request raised by
    [service].  Mutated fields are threaded through explicitly: every
    member function takes the object and returns the updated object. *)

From Stdlib Require Import ZArith List Bool Lia.
Import ListNotations.

Local Open Scope Z_scope.

(** ** Machine integers

    [u8] is an 8-bit unsigned integer, carried as a [Z] in [0, 256).
    [UX] is the address type of the processor, an unsigned machine word.
    An [int] expression assigned to a [u8] lvalue is narrowed modulo
    2^8, which [to_u8] writes out. *)

Definition u8 : Type := Z.
Definition UX : Type := Z.

Definition to_u8 (z : Z) : u8 := z mod 256.

Definition is_u8 (z : Z) : Prop := 0 <= z < 256.

(** A C++ integer used as a condition is true when it is not zero. *)
Definition nonzero (z : Z) : bool := negb (z =? 0).

(** ** The byte queue *)

Module queue_atomic.

(** Modelled from the spec: the class template [queue_atomic<T>] is
    declared outside device-uart.h.  The spec describes the input byte
    buffer as an ordered sequence of bytes, bounded or growable, whose
    insertion order is its read order (FIFO, no reordering).  The
    constructor argument is the bound; an element is kept as its 8-bit
    pattern, which the conversions between [char] and [u8] preserve. *)
Record t : Type := mk { capacity : Z; items : list u8 }.

Definition create (limit : Z) : t := mk limit [].

Definition size (q : t) : Z := Z.of_nat (length (items q)).

Definition push_back (c : u8) (q : t) : t :=
  if size q <? capacity q then mk (capacity q) (items q ++ [c]) else q.

Definition pop_front (q : t) : t * u8 :=
  match items q with
  | [] => (q, 0)
  | c :: rest => (mk (capacity q) rest, c)
  end.

End queue_atomic.

(** ** Console thread *)

(** The fields of [console_thread] that the member functions read or
    write.  [pipe] holds the bytes written to [pipefds[1]] and not yet
    read from [pipefds[0]]; [tty] holds the bytes the main loop wrote to
    the terminal; [raw] tells whether [new_tio] (no ICANON, no ECHO) is
    the terminal setting in force. *)
Record console_thread : Type := mk_console {
  pipe : list u8;
  tty : list u8;
  raw : bool;
  queue : queue_atomic.t;
  running : bool;
  suspended : bool
}.

Definition set_queue (q : queue_atomic.t) (ct : console_thread) : console_thread :=
  mk_console (pipe ct) (tty ct) (raw ct) q (running ct) (suspended ct).

Definition set_pipe (p : list u8) (ct : console_thread) : console_thread :=
  mk_console p (tty ct) (raw ct) (queue ct) (running ct) (suspended ct).

Definition set_tty (o : list u8) (ct : console_thread) : console_thread :=
  mk_console (pipe ct) o (raw ct) (queue ct) (running ct) (suspended ct).

Definition set_raw (b : bool) (ct : console_thread) : console_thread :=
  mk_console (pipe ct) (tty ct) b (queue ct) (running ct) (suspended ct).

Definition set_running (b : bool) (ct : console_thread) : console_thread :=
  mk_console (pipe ct) (tty ct) (raw ct) (queue ct) b (suspended ct).

Definition set_suspended (b : bool) (ct : console_thread) : console_thread :=
  mk_console (pipe ct) (tty ct) (raw ct) (queue ct) (running ct) b.

(** The constructor, followed by the start of [mainloop]: the pipe is
    open and empty, the terminal is configured. *)
Definition console_thread_new : console_thread :=
  mk_console [] [] true (queue_atomic.create 1024) true false.

Definition configure_console (ct : console_thread) : console_thread :=
  set_raw true ct.

Definition restore_console (ct : console_thread) : console_thread :=
  set_raw false ct.

(** One turn of the [while (running)] loop after [poll] returned.  The
    pipe end is readable when a byte is waiting in it; [stdin] is the byte
    the host terminal has ready, if any.  A failing [read] or [write] only
    logs, so the successful path is the one modelled. *)
Definition mainloop_iter (stdin : option u8) (ct : console_thread) : console_thread :=
  if negb (running ct) then ct
  else
    let ct1 :=
      match pipe ct with
      | c :: rest => set_tty (tty ct ++ [c]) (set_pipe rest ct)
      | [] => ct
      end in
    if suspended ct1 then ct1
    else
      match stdin with
      | Some c => set_queue (queue_atomic.push_back c (queue ct1)) ct1
      | None => ct1
      end.

Definition suspend (ct : console_thread) : console_thread :=
  set_suspended true (restore_console ct).

Definition resume (ct : console_thread) : console_thread :=
  set_suspended false (configure_console ct).

Definition has_char (ct : console_thread) : bool :=
  0 <? queue_atomic.size (queue ct).

Definition read_char (ct : console_thread) : console_thread * u8 :=
  if 0 <? queue_atomic.size (queue ct)
  then let (q, c) := queue_atomic.pop_front (queue ct) in (set_queue q ct, c)
  else (ct, 0).

Definition write_char (c : u8) (ct : console_thread) : console_thread :=
  set_pipe (pipe ct ++ [c]) ct.

(** ** UART registers *)

(** The anonymous struct [com]. *)
Record com_regs : Type := mk_com {
  rbr : u8;   (* (R  [0]) Recieve Buffer Register        *)
  thr : u8;   (* (W  [0]) Transmit Holding Register      *)
  ier : u8;   (* (RW [1]) Interrupt Enable Register      *)
  iir : u8;   (* (R  [2]) Interrupt Identity Register    *)
  fcr : u8;   (* (W  [2]) FIFO Control Register          *)
  lcr : u8;   (* (RW [3]) Line Control Register          *)
  mcr : u8;   (* (RW [4]) MODEM Control Register         *)
  lsr : u8;   (* (RW [5]) Line Status Register           *)
  msr : u8;   (* (RW [6]) MODEM Status Register          *)
  scr : u8;   (* (RW [7]) Scratch Register               *)
  dll : u8;   (* (RW [0]) Divisor Latch LSB (LCR.DLAB=1) *)
  dlm : u8    (* (RW [1]) Divisor Latch MSB (LCR.DLAB=1) *)
}.

Definition set_rbr (v : u8) (c : com_regs) : com_regs :=
  mk_com v (thr c) (ier c) (iir c) (fcr c) (lcr c) (mcr c) (lsr c) (msr c) (scr c) (dll c) (dlm c).

Definition set_thr (v : u8) (c : com_regs) : com_regs :=
  mk_com (rbr c) v (ier c) (iir c) (fcr c) (lcr c) (mcr c) (lsr c) (msr c) (scr c) (dll c) (dlm c).

Definition set_ier (v : u8) (c : com_regs) : com_regs :=
  mk_com (rbr c) (thr c) v (iir c) (fcr c) (lcr c) (mcr c) (lsr c) (msr c) (scr c) (dll c) (dlm c).

Definition set_lcr (v : u8) (c : com_regs) : com_regs :=
  mk_com (rbr c) (thr c) (ier c) (iir c) (fcr c) v (mcr c) (lsr c) (msr c) (scr c) (dll c) (dlm c).

Definition set_mcr (v : u8) (c : com_regs) : com_regs :=
  mk_com (rbr c) (thr c) (ier c) (iir c) (fcr c) (lcr c) v (lsr c) (msr c) (scr c) (dll c) (dlm c).

Definition set_scr (v : u8) (c : com_regs) : com_regs :=
  mk_com (rbr c) (thr c) (ier c) (iir c) (fcr c) (lcr c) (mcr c) (lsr c) (msr c) v (dll c) (dlm c).

Definition set_dll (v : u8) (c : com_regs) : com_regs :=
  mk_com (rbr c) (thr c) (ier c) (iir c) (fcr c) (lcr c) (mcr c) (lsr c) (msr c) (scr c) v (dlm c).

Definition set_dlm (v : u8) (c : com_regs) : com_regs :=
  mk_com (rbr c) (thr c) (ier c) (iir c) (fcr c) (lcr c) (mcr c) (lsr c) (msr c) (scr c) (dll c) v.

(** The enumerators the member functions use. *)
Definition REG_RBR : Z := 0.
Definition REG_THR : Z := 0.
Definition REG_DLL : Z := 0.
Definition REG_IER : Z := 1.
Definition REG_DLM : Z := 1.
Definition REG_IIR : Z := 2.
Definition REG_FCR : Z := 2.
Definition REG_LCR : Z := 3.
Definition REG_MCR : Z := 4.
Definition REG_LSR : Z := 5.
Definition REG_MSR : Z := 6.
Definition REG_SCR : Z := 7.

Definition IER_ERBDA : Z := 0x01. (* Enable Recieved Buffer Data Available Interrupt *)
Definition IER_MASK : Z := 0x0f.  (* Interrupt Enable Mask *)

Definition IIR_TX_RDY : Z := 0x02. (* Transmit Ready      (Reset by IIR read or THR write) *)
Definition IIR_RX_RDY : Z := 0x04. (* Receive Ready       (Reset by RBR read) *)
Definition IIR_RD_LSR : Z := 0x06. (* Read Line Status    (Reset by LSR read) *)

Definition LCR_DLAB : Z := 0x80.   (* Divisor Latch Bit *)

Definition LSR_DA : Z := 0x01.     (* Data Available *)
Definition LSR_RE : Z := 0x20.     (* THR is empty *)

Definition MSR_DSR : Z := 0x20.    (* Data Set Ready *)
Definition MSR_DCD : Z := 0x80.    (* Data Carrier Detect *)

(** ** The device *)

(** A line printed by the register trace. *)
Inductive mmio_line : Type :=
| line_load (va : UX) (val : u8)     (* uart_mmio:0x%04llx -> 0x%hhx *)
| line_store (va : UX) (val : u8).   (* uart_mmio:0x%04llx <- 0x%hhx *)

(** [uart_mmio_device] together with what it reaches through its
    references.  [log_mmio] is the value of [proc.log & proc_log_mmio]
    as a condition, [printed] the lines [printf] has written, and
    [plic] the requests the interrupt controller has received (see
    [signal_irq]). *)
Record uart_mmio_device : Type := mk_uart {
  log_mmio : bool;
  printed : list mmio_line;
  plic : list UX;
  irq : UX;
  console : console_thread;
  com : com_regs
}.

Definition set_com (c : com_regs) (d : uart_mmio_device) : uart_mmio_device :=
  mk_uart (log_mmio d) (printed d) (plic d) (irq d) (console d) c.

Definition set_console (ct : console_thread) (d : uart_mmio_device) : uart_mmio_device :=
  mk_uart (log_mmio d) (printed d) (plic d) (irq d) ct (com d).

Definition print_line (l : mmio_line) (d : uart_mmio_device) : uart_mmio_device :=
  mk_uart (log_mmio d) (printed d ++ [l]) (plic d) (irq d) (console d) (com d).

(** Modelled from the spec: [plic_mmio_device] is declared outside
    device-uart.h.  The spec gives [signal_irq(line_number)] as a
    fire-and-forget interrupt sink, so the controller is kept as the
    sequence of line numbers signalled so far. *)
Definition signal_irq (line : UX) (d : uart_mmio_device) : uart_mmio_device :=
  mk_uart (log_mmio d) (printed d) (plic d ++ [line]) (irq d) (console d) (com d).

(** The constructor: [com{0}] and a fresh console thread. *)
Definition com_zero : com_regs := mk_com 0 0 0 0 0 0 0 0 0 0 0 0.

Definition uart_mmio_device_new (log : bool) (irq : UX) : uart_mmio_device :=
  mk_uart log [] [] irq console_thread_new com_zero.

(** [com.lcr & LCR_DLAB] as a condition. *)
Definition dlab (d : uart_mmio_device) : bool :=
  nonzero (Z.land (lcr (com d)) LCR_DLAB).

Definition service (d : uart_mmio_device) : uart_mmio_device :=
  if nonzero (Z.land (ier (com d)) IER_ERBDA) && has_char (console d)
  then signal_irq (irq d) d
  else d.

(** The two [switch] statements of [load_8].  [val] is passed by
    reference: the value it holds on entry is the one it keeps when no
    case assigns it. *)
Definition load_8_regs (d : uart_mmio_device) (va : UX) (val : u8)
  : uart_mmio_device * u8 :=
  if dlab d then
    if va =? REG_DLL then (d, dll (com d))
    else if va =? REG_DLM then (d, dlm (com d))
    else (d, val)
  else
    if va =? REG_RBR then
      let d1 :=
        if has_char (console d)
        then let (ct, c) := read_char (console d) in
             set_com (set_rbr c (com d)) (set_console ct d)
        else d in
      (d1, rbr (com d1))
    else if va =? REG_IER then
      (* no break: control falls through into the REG_IIR case *)
      let val1 := ier (com d) in
      let val2 := if has_char (console d) then IIR_RD_LSR else IIR_TX_RDY in
      (d, val2)
    else if va =? REG_IIR then
      (d, if has_char (console d) then IIR_RD_LSR else IIR_TX_RDY)
    else if va =? REG_LCR then (d, lcr (com d))
    else if va =? REG_MCR then (d, mcr (com d))
    else if va =? REG_LSR then
      (d, to_u8 (Z.lor LSR_RE (if has_char (console d) then LSR_DA else 0)))
    else if va =? REG_MSR then (d, to_u8 (Z.lor MSR_DCD MSR_DSR))
    else if va =? REG_SCR then (d, scr (com d))
    else (d, 0).

Definition load_8 (d : uart_mmio_device) (va : UX) (val : u8)
  : uart_mmio_device * u8 :=
  let (d1, val1) := load_8_regs d va val in
  if log_mmio d1 then (print_line (line_load va val1) d1, val1) else (d1, val1).

Definition store_8_regs (d : uart_mmio_device) (va : UX) (val : u8)
  : uart_mmio_device :=
  if dlab d then
    if va =? REG_DLL then set_com (set_dll val (com d)) d
    else if va =? REG_DLM then set_com (set_dlm val (com d)) d
    else d
  else
    if va =? REG_THR then
      set_console (write_char val (console d)) (set_com (set_thr val (com d)) d)
    else if va =? REG_IER then
      set_com (set_ier (to_u8 (Z.land val IER_MASK)) (com d)) d
    else if va =? REG_FCR then d  (* ignore writes *)
    else if va =? REG_LCR then set_com (set_lcr val (com d)) d
    else if va =? REG_MCR then set_com (set_mcr val (com d)) d
    else if va =? REG_LSR then d  (* ignore writes *)
    else if va =? REG_MSR then d  (* ignore writes *)
    else if va =? REG_SCR then set_com (set_scr val (com d)) d
    else d.

Definition store_8 (d : uart_mmio_device) (va : UX) (val : u8)
  : uart_mmio_device :=
  let d1 := if log_mmio d then print_line (line_store va val) d else d in
  store_8_regs d1 va val.

(** [shutdown], with the exit of the main loop it waits for: the loop
    sees [running] cleared and restores the terminal. *)
Definition shutdown (ct : console_thread) : console_thread :=
  restore_console (set_pipe (pipe ct ++ [0]) (set_running false ct)).

(** ** Runs of the device

    What can happen to a device between its construction and its
    destruction: the emulator loads, stores and services it, the console
    thread takes a turn of its loop, the debugger suspends and resumes
    the console. *)
Inductive event : Type :=
| ev_load (va : UX) (val : u8)
| ev_store (va : UX) (val : u8)
| ev_service
| ev_mainloop (stdin : option u8)
| ev_suspend
| ev_resume.

Definition step (d : uart_mmio_device) (e : event) : uart_mmio_device :=
  match e with
  | ev_load va val => fst (load_8 d va val)
  | ev_store va val => store_8 d va val
  | ev_service => service d
  | ev_mainloop stdin => set_console (mainloop_iter stdin (console d)) d
  | ev_suspend => set_console (suspend (console d)) d
  | ev_resume => set_console (resume (console d)) d
  end.

Definition run (es : list event) (d : uart_mmio_device) : uart_mmio_device :=
  fold_left step es d.

Definition reachable (d : uart_mmio_device) : Prop :=
  exists log line es, d = run es (uart_mmio_device_new log line).

(** ** Scenarios

    Device states the emulator reaches, used below to run the code on
    concrete inputs.  The device is built with tracing off on interrupt
    line 10. *)

Definition boot : uart_mmio_device := uart_mmio_device_new false 10.

(** The host typed 'A' and the console thread queued it. *)
Definition key_typed : uart_mmio_device := step boot (ev_mainloop (Some 0x41)).

(** The guest enabled the received-data interrupt. *)
Definition rx_irq_enabled : uart_mmio_device := store_8 boot REG_IER 0x01.

(** The guest wrote the line control register: 8-bit words, with and
    without the divisor latch bit. *)
Definition lcr_8bit : uart_mmio_device := store_8 boot REG_LCR 0x03.
Definition lcr_8bit_dlab : uart_mmio_device := store_8 boot REG_LCR 0x83.

(** The guest programmed the divisor (DLL = 0x01, DLM = 0x03) and then
    wrote LCR = 0x03 to leave the divisor bank. *)
Definition divisor_written : uart_mmio_device :=
  store_8 (store_8 lcr_8bit_dlab REG_DLL 0x01) REG_DLM 0x03.
Definition divisor_left : uart_mmio_device :=
  store_8 divisor_written REG_LCR 0x03.

(** ** Observations on runs *)

(** [n] successive loads of address 0 and the values they return, first
    load first. *)
Fixpoint load_rbr_n (n : nat) (d : uart_mmio_device) (val : u8)
  : uart_mmio_device * list u8 :=
  match n with
  | O => (d, [])
  | S k =>
      let (d1, v) := load_8 d REG_RBR val in
      let (d2, vs) := load_rbr_n k d1 val in
      (d2, v :: vs)
  end.

(** The bytes the stores of a run hand to [write_char]: the values
    stored to address 0 while DLAB is clear, in the order of the run. *)
Fixpoint thr_bytes (es : list event) (d : uart_mmio_device) : list u8 :=
  match es with
  | [] => []
  | e :: es' =>
      match e with
      | ev_store va val =>
          if negb (dlab d) && (va =? REG_THR) then [val] else []
      | _ => []
      end ++ thr_bytes es' (step d e)
  end.

(** The bytes on their way to the terminal: those the main loop has
    relayed, then those still waiting in the pipe. *)
Definition out_stream (ct : console_thread) : list u8 := tty ct ++ pipe ct.

(** Successive turns of the main loop, one for each entry of [ins]:
    what the terminal has ready at that turn. *)
Definition mainloop_turns (ins : list (option u8)) (ct : console_thread)
  : console_thread :=
  fold_left (fun ct0 stdin => mainloop_iter stdin ct0) ins ct.

(** The number of [service] calls in a run. *)
Definition services (es : list event) : nat :=
  length (filter (fun e => match e with ev_service => true | _ => false end) es).

(** The device with the trace flag of the processor set to [b]. *)
Definition set_log_mmio (b : bool) (d : uart_mmio_device) : uart_mmio_device :=
  mk_uart b (printed d) (plic d) (irq d) (console d) (com d).

(** Every register of [com] holds a byte. *)
Definition com_u8 (c : com_regs) : Prop :=
  is_u8 (rbr c) /\ is_u8 (thr c) /\ is_u8 (ier c) /\ is_u8 (iir c) /\
  is_u8 (fcr c) /\ is_u8 (lcr c) /\ is_u8 (mcr c) /\ is_u8 (lsr c) /\
  is_u8 (msr c) /\ is_u8 (scr c) /\ is_u8 (dll c) /\ is_u8 (dlm c).

(** Every register, queued byte and byte on its way out is a byte. *)
Definition device_u8 (d : uart_mmio_device) : Prop :=
  com_u8 (com d) /\
  Forall is_u8 (queue_atomic.items (queue (console d))) /\
  Forall is_u8 (pipe (console d)) /\
  Forall is_u8 (tty (console d)).

(** The caller of an event passes bytes where the code takes a [u8] or
    reads an [unsigned char]. *)
Definition event_u8 (e : event) : Prop :=
  match e with
  | ev_load _ val => is_u8 val
  | ev_store _ val => is_u8 val
  | ev_mainloop (Some c) => is_u8 c
  | _ => True
  end.

(** * Properties *)

(** ** Conditions and masks *)

Lemma land_1_testbit (x : Z) : Z.land x 1 = Z.b2z (Z.testbit x 0).
Proof.
  change 1 with (Z.ones 1). rewrite Z.land_ones by lia.
  change (2 ^ 1) with 2. symmetry. apply Z.bit0_mod.
Qed.

Lemma nonzero_land_1 (x : Z) : nonzero (Z.land x 1) = Z.testbit x 0.
Proof.
  rewrite land_1_testbit. now destruct (Z.testbit x 0).
Qed.

Lemma land_mask_range (x : Z) : 0 <= Z.land x IER_MASK < 16.
Proof.
  unfold IER_MASK. change 0x0f with (Z.ones 4).
  rewrite Z.land_ones by lia. apply Z.mod_pos_bound. reflexivity.
Qed.

Lemma to_u8_small (x : Z) : is_u8 x -> to_u8 x = x.
Proof. intros H. apply Z.mod_small. exact H. Qed.

Lemma has_char_items (ct : console_thread) :
  has_char ct = negb (match queue_atomic.items (queue ct) with [] => true | _ => false end).
Proof.
  unfold has_char, queue_atomic.size.
  destruct (queue_atomic.items (queue ct)); simpl; [reflexivity|].
  apply Z.ltb_lt. lia.
Qed.

Lemma app_one_neq {A : Type} (l : list A) (x : A) : l ++ [x] <> l.
Proof.
  intros H. apply (f_equal (@length A)) in H.
  rewrite length_app in H. simpl in H. lia.
Qed.

(** ** Loads in the DLAB = 0 bank *)

(** The trace does not change the value a load returns. *)
Lemma load_8_val (d : uart_mmio_device) (va : UX) (val : u8) :
  snd (load_8 d va val) = snd (load_8_regs d va val).
Proof.
  unfold load_8. destruct (load_8_regs d va val) as [d1 v1].
  now destruct (log_mmio d1).
Qed.

Lemma load_8_com (d : uart_mmio_device) (va : UX) (val : u8) :
  com (fst (load_8 d va val)) = com (fst (load_8_regs d va val)).
Proof.
  unfold load_8. destruct (load_8_regs d va val) as [d1 v1].
  now destruct (log_mmio d1).
Qed.

Lemma load_8_console (d : uart_mmio_device) (va : UX) (val : u8) :
  console (fst (load_8 d va val)) = console (fst (load_8_regs d va val)).
Proof.
  unfold load_8. destruct (load_8_regs d va val) as [d1 v1].
  now destruct (log_mmio d1).
Qed.

Lemma load_8_plic (d : uart_mmio_device) (va : UX) (val : u8) :
  plic (fst (load_8 d va val)) = plic d.
Proof.
  unfold load_8, load_8_regs.
  repeat match goal with
         | |- context [if ?b then _ else _] => destruct b
         | |- context [let (_, _) := ?p in _] => destruct p
         end; reflexivity.
Qed.

Lemma load_ier_regs (d : uart_mmio_device) (val : u8) :
  dlab d = false ->
  load_8_regs d REG_IER val =
  (d, if has_char (console d) then IIR_RD_LSR else IIR_TX_RDY).
Proof. intros H. unfold load_8_regs. rewrite H. reflexivity. Qed.

Lemma load_iir_regs (d : uart_mmio_device) (val : u8) :
  dlab d = false ->
  load_8_regs d REG_IIR val =
  (d, if has_char (console d) then IIR_RD_LSR else IIR_TX_RDY).
Proof. intros H. unfold load_8_regs. rewrite H. reflexivity. Qed.

(** C1: with DLAB clear, a load of address 1 is claimed to return the
    stored IER.  The REG_IER case of [load_8] has no [break]: after the
    guest stored IER = 0x01, with no input queued, the load of address 1
    returns IIR_TX_RDY (0x02), not the stored 0x01. *)
Theorem C1_load_ier_falls_through :
  dlab rx_irq_enabled = false /\
  ier (com rx_irq_enabled) = 0x01 /\
  snd (load_8 rx_irq_enabled REG_IER 0) = IIR_TX_RDY /\
  snd (load_8 rx_irq_enabled REG_IER 0) <> ier (com rx_irq_enabled).
Proof. repeat split. discriminate. Qed.

(** C2: with DLAB clear, a load of address 2 is claimed to return
    IIR_RX_RDY (0x04) when input is queued.  With one byte queued the
    code returns IIR_RD_LSR (0x06); with nothing queued it returns
    IIR_TX_RDY (0x02) as claimed. *)
Theorem C2_load_iir_reports_rd_lsr :
  dlab key_typed = false /\
  has_char (console key_typed) = true /\
  snd (load_8 key_typed REG_IIR 0) = IIR_RD_LSR /\
  snd (load_8 key_typed REG_IIR 0) <> IIR_RX_RDY /\
  snd (load_8 boot REG_IIR 0) = IIR_TX_RDY.
Proof. repeat split. discriminate. Qed.

(** C10: with DLAB clear, a load of address 1 returns the same value as
    a load of address 2 and leaves the same registers, queue and
    interrupt requests behind; that value is decided by [has_char]
    alone.  In either bank and at every address, the value a load
    returns does not depend on the stored IER. *)
Theorem C10_load_ier_equals_load_iir :
  (forall (d : uart_mmio_device) (val val' : u8),
      dlab d = false ->
      snd (load_8 d REG_IER val) = snd (load_8 d REG_IIR val') /\
      snd (load_8 d REG_IER val) =
        (if has_char (console d) then IIR_RD_LSR else IIR_TX_RDY) /\
      com (fst (load_8 d REG_IER val)) = com (fst (load_8 d REG_IIR val')) /\
      console (fst (load_8 d REG_IER val)) = console (fst (load_8 d REG_IIR val')) /\
      plic (fst (load_8 d REG_IER val)) = plic (fst (load_8 d REG_IIR val'))) /\
  (forall (d : uart_mmio_device) (va : UX) (val v : u8),
      snd (load_8 (set_com (set_ier v (com d)) d) va val) = snd (load_8 d va val)).
Proof.
  split.
  - intros d val val' H.
    rewrite !load_8_val, !load_8_com, !load_8_console, !load_8_plic.
    rewrite (load_ier_regs d val H), (load_iir_regs d val' H).
    repeat split.
  - intros d va val v. rewrite !load_8_val.
    unfold load_8_regs, dlab. simpl.
    repeat match goal with
           | |- context [if ?b then _ else _] => destruct b
           | |- context [let (_, _) := ?p in _] => destruct p
           end; reflexivity.
Qed.

Lemma C10_load_ier_equals_load_iir_witness :
  snd (load_8 rx_irq_enabled REG_IER 0) = snd (load_8 rx_irq_enabled REG_IIR 0) /\
  snd (load_8 rx_irq_enabled REG_IER 0) = IIR_TX_RDY.
Proof.
  destruct C10_load_ier_equals_load_iir as [H _].
  destruct (H rx_irq_enabled 0 0 eq_refl) as [H1 [H2 _]].
  split; [exact H1 | exact H2].
Defined.

(** ** Interrupt requests *)

(** C4: [service] signals the configured line exactly when bit 0x01 of
    the stored IER is set and the queue holds input; one call adds one
    request for line [irq]; when either condition fails nothing is
    signalled and the device is unchanged. *)
Theorem C4_service_signals_iff (d : uart_mmio_device) :
  service d =
    (if Z.testbit (ier (com d)) 0 && has_char (console d)
     then signal_irq (irq d) d else d) /\
  (plic (service d) = plic d ++ [irq d] <->
     Z.testbit (ier (com d)) 0 = true /\ has_char (console d) = true) /\
  (Z.testbit (ier (com d)) 0 = false \/ has_char (console d) = false ->
     service d = d).
Proof.
  unfold service, IER_ERBDA. rewrite nonzero_land_1.
  destruct (Z.testbit (ier (com d)) 0), (has_char (console d)); simpl;
    (split; [reflexivity | split]);
    try (intros [H | H]; (discriminate H || reflexivity));
    try (split; [intros H; symmetry in H; now apply app_one_neq in H
                | intros [H1 H2]; discriminate]).
  split; auto.
Qed.

Lemma C4_service_signals_iff_witness :
  service rx_irq_enabled = rx_irq_enabled /\
  plic (service (step rx_irq_enabled (ev_mainloop (Some 0x41)))) = [10].
Proof.
  split.
  - apply (C4_service_signals_iff rx_irq_enabled). right. reflexivity.
  - apply (C4_service_signals_iff (step rx_irq_enabled (ev_mainloop (Some 0x41)))).
    split; reflexivity.
Defined.

(** ** The receive path *)

Lemma read_char_items (ct : console_thread) :
  read_char ct =
  match queue_atomic.items (queue ct) with
  | [] => (ct, 0)
  | c :: rest =>
      (set_queue (queue_atomic.mk (queue_atomic.capacity (queue ct)) rest) ct, c)
  end.
Proof.
  unfold read_char, queue_atomic.pop_front, queue_atomic.size.
  destruct (queue_atomic.items (queue ct)) as [|c rest]; [reflexivity|].
  replace (0 <? Z.of_nat (length (c :: rest))) with true; [reflexivity|].
  symmetry. apply Z.ltb_lt. simpl. lia.
Qed.

(** C8: [read_char] on an empty queue returns 0 and changes nothing; on
    a queue whose oldest byte is [c] it returns [c] and leaves the later
    bytes in their order.  A byte pushed behind a queued byte does not
    overtake it.  [read_char] is a total function: every queue state
    gives a result. *)
Theorem C8_read_char_oldest_or_zero :
  (forall ct : console_thread,
      match queue_atomic.items (queue ct) with
      | [] => read_char ct = (ct, 0)
      | c :: rest =>
          read_char ct =
          (set_queue (queue_atomic.mk (queue_atomic.capacity (queue ct)) rest) ct, c)
      end) /\
  (forall (ct : console_thread) (c0 c : u8) (rest : list u8),
      queue_atomic.items (queue ct) = c0 :: rest ->
      snd (read_char (set_queue (queue_atomic.push_back c (queue ct)) ct)) = c0).
Proof.
  split.
  - intros ct. rewrite read_char_items.
    now destruct (queue_atomic.items (queue ct)).
  - intros ct c0 c rest H.
    unfold read_char, queue_atomic.push_back, queue_atomic.pop_front, queue_atomic.size.
    destruct (Z.of_nat (length (queue_atomic.items (queue ct)))
              <? queue_atomic.capacity (queue ct)); simpl; rewrite H; simpl.
    + replace (0 <? Z.pos (Pos.of_succ_nat (length (rest ++ [c])))) with true;
        [reflexivity | symmetry; apply Z.ltb_lt; lia].
    + replace (0 <? Z.pos (Pos.of_succ_nat (length rest))) with true;
        [reflexivity | symmetry; apply Z.ltb_lt; lia].
Qed.

Lemma C8_read_char_oldest_or_zero_witness :
  snd (read_char (console (step key_typed (ev_mainloop (Some 0x42))))) = 0x41.
Proof.
  destruct C8_read_char_oldest_or_zero as [_ H].
  exact (H (console key_typed) 0x41 0x42 [] eq_refl).
Defined.

(** C6: with DLAB clear, a load of address 0 moves the oldest queued
    byte into RBR when input is queued and returns it; with nothing
    queued it returns the RBR value already stored and leaves the
    registers and the queue as they were. *)
Theorem C6_load_rbr (d : uart_mmio_device) (val : u8) :
  dlab d = false ->
  match queue_atomic.items (queue (console d)) with
  | c :: rest =>
      has_char (console d) = true /\
      snd (load_8 d REG_RBR val) = c /\
      com (fst (load_8 d REG_RBR val)) = set_rbr c (com d) /\
      queue_atomic.items (queue (console (fst (load_8 d REG_RBR val)))) = rest
  | [] =>
      has_char (console d) = false /\
      snd (load_8 d REG_RBR val) = rbr (com d) /\
      com (fst (load_8 d REG_RBR val)) = com d /\
      console (fst (load_8 d REG_RBR val)) = console d
  end.
Proof.
  intros H.
  rewrite load_8_val, load_8_com, load_8_console.
  unfold load_8_regs. rewrite H. simpl.
  rewrite has_char_items, read_char_items.
  destruct (queue_atomic.items (queue (console d))) as [|c rest]; simpl;
    repeat split.
Qed.

Lemma C6_load_rbr_witness :
  has_char (console key_typed) = true /\
  snd (load_8 key_typed REG_RBR 0) = 0x41 /\
  com (fst (load_8 key_typed REG_RBR 0)) = set_rbr 0x41 (com key_typed) /\
  queue_atomic.items (queue (console (fst (load_8 key_typed REG_RBR 0)))) = [].
Proof. exact (C6_load_rbr key_typed 0 eq_refl). Defined.

(** C7: with DLAB clear, a load of address 5 returns a value with the
    "THR is empty" bit (LSR_RE, 0x20) set, and with the "data available"
    bit (LSR_DA, 0x01) set exactly when input is queued at the time of
    the load. *)
Theorem C7_load_lsr (d : uart_mmio_device) (val : u8) :
  dlab d = false ->
  Z.land (snd (load_8 d REG_LSR val)) LSR_RE = LSR_RE /\
  (Z.land (snd (load_8 d REG_LSR val)) LSR_DA = LSR_DA <->
     has_char (console d) = true) /\
  snd (load_8 d REG_LSR val) = (if has_char (console d) then 0x21 else 0x20).
Proof.
  intros H. rewrite load_8_val. unfold load_8_regs. rewrite H. simpl.
  destruct (has_char (console d)); simpl; repeat split;
    try reflexivity; try discriminate.
Qed.

Lemma C7_load_lsr_witness :
  snd (load_8 key_typed REG_LSR 0) = 0x21 /\
  snd (load_8 (fst (load_8 key_typed REG_RBR 0)) REG_LSR 0) = 0x20.
Proof.
  split.
  - apply (C7_load_lsr key_typed 0 eq_refl).
  - apply (C7_load_lsr (fst (load_8 key_typed REG_RBR 0)) 0 eq_refl).
Defined.

(** ** The interrupt enable register *)

Lemma store_8_regs_com (d : uart_mmio_device) (va : UX) (val : u8) :
  com (store_8 d va val) = com (store_8_regs d va val).
Proof.
  unfold store_8. destruct (log_mmio d); [|reflexivity].
  unfold store_8_regs, dlab. simpl.
  repeat match goal with
         | |- context [if ?b then _ else _] => destruct b
         end; reflexivity.
Qed.

Lemma store_ier (d : uart_mmio_device) (v : u8) :
  dlab d = false ->
  com (store_8 d REG_IER v) = set_ier (Z.land v IER_MASK) (com d).
Proof.
  intros H. rewrite store_8_regs_com. unfold store_8_regs. rewrite H. simpl.
  rewrite to_u8_small; [reflexivity|].
  pose proof (land_mask_range v). unfold is_u8. lia.
Qed.

Lemma low_nibble_high_bits (x : Z) : 0 <= x < 16 -> Z.land x 0xf0 = 0.
Proof.
  intros H.
  rewrite <- (Z.mod_small x 16) by exact H.
  change 16 with (2 ^ 4). rewrite <- Z.land_ones by lia.
  rewrite <- Z.land_assoc. change (Z.land (Z.ones 4) 0xf0) with 0.
  apply Z.land_0_r.
Qed.

(** Every step either keeps the stored IER or stores a masked value. *)
Lemma step_ier (d : uart_mmio_device) (e : event) :
  ier (com (step d e)) = ier (com d) \/
  exists v, ier (com (step d e)) = Z.land v IER_MASK.
Proof.
  destruct e as [va val|va val| | | |]; simpl.
  - left. rewrite load_8_com. unfold load_8_regs.
    repeat match goal with
           | |- context [if ?b then _ else _] => destruct b
           | |- context [let (_, _) := ?p in _] => destruct p
           end; reflexivity.
  - rewrite store_8_regs_com.
    destruct (dlab d) eqn:Hd.
    + left. unfold store_8_regs. rewrite Hd.
      repeat match goal with
             | |- context [if ?b then _ else _] => destruct b
             end; reflexivity.
    + destruct (va =? REG_IER) eqn:Hva.
      * right. exists val. apply Z.eqb_eq in Hva. subst va.
        rewrite <- store_8_regs_com, store_ier by exact Hd. reflexivity.
      * left. unfold store_8_regs. rewrite Hd, Hva.
        repeat match goal with
               | |- context [if ?b then _ else _] => destruct b
               end; reflexivity.
  - left. unfold service.
    now destruct (nonzero (Z.land (ier (com d)) IER_ERBDA) && has_char (console d)).
  - left. reflexivity.
  - left. reflexivity.
  - left. reflexivity.
Qed.

Lemma run_ier_range (es : list event) (d : uart_mmio_device) :
  0 <= ier (com d) < 16 -> 0 <= ier (com (run es d)) < 16.
Proof.
  revert d. induction es as [|e es IH]; intros d H; [exact H|].
  simpl. apply IH.
  destruct (step_ier d e) as [Heq | [v Heq]]; rewrite Heq.
  - exact H.
  - apply land_mask_range.
Qed.

(** C9: with DLAB clear, a store of [v] to address 1 sets IER to
    [v & 0x0f]; in every state a run from the constructor reaches, the
    stored IER is below 16, so its bits 4 to 7 are zero. *)
Theorem C9_ier_masked :
  (forall (d : uart_mmio_device) (v : u8),
      dlab d = false -> ier (com (store_8 d REG_IER v)) = Z.land v 0x0f) /\
  (forall d : uart_mmio_device,
      reachable d ->
      0 <= ier (com d) < 16 /\ Z.land (ier (com d)) 0xf0 = 0).
Proof.
  split.
  - intros d v H. rewrite store_ier by exact H. reflexivity.
  - intros d (log & line & es & ->).
    assert (0 <= ier (com (run es (uart_mmio_device_new log line))) < 16) as H
        by (apply run_ier_range; simpl; lia).
    split; [exact H | apply low_nibble_high_bits, H].
Qed.

Lemma C9_ier_masked_witness :
  ier (com (store_8 boot REG_IER 0xff)) = 0x0f /\
  Z.land (ier (com (run [ev_store REG_IER 0xff; ev_mainloop (Some 0x41); ev_service] boot)))
         0xf0 = 0.
Proof.
  destruct C9_ier_masked as [H1 H2]. split.
  - exact (H1 boot 0xff eq_refl).
  - apply H2. exists false, 10.
    exists [ev_store REG_IER 0xff; ev_mainloop (Some 0x41); ev_service].
    reflexivity.
Defined.

(** ** The divisor latch bank *)

(** With DLAB set, a store to an address other than 0 and 1 reaches the
    [default] case of the first [switch] and writes no register. *)
Lemma dlab_store_ignored (d : uart_mmio_device) (va : UX) (val : u8) :
  dlab d = true -> va <> REG_DLL -> va <> REG_DLM ->
  com (store_8 d va val) = com d /\ console (store_8 d va val) = console d.
Proof.
  intros H H0 H1.
  apply Z.eqb_neq in H0. apply Z.eqb_neq in H1.
  unfold store_8, store_8_regs, dlab in *.
  destruct (log_mmio d); simpl; rewrite H, H0, H1; split; reflexivity.
Qed.

(** With DLAB set, a load from an address other than 0 and 1 assigns
    nothing: the caller gets back the value [val] already held. *)
Lemma dlab_load_unassigned (d : uart_mmio_device) (va : UX) (val : u8) :
  dlab d = true -> va <> REG_DLL -> va <> REG_DLM ->
  snd (load_8 d va val) = val.
Proof.
  intros H H0 H1.
  apply Z.eqb_neq in H0. apply Z.eqb_neq in H1.
  rewrite load_8_val. unfold load_8_regs. rewrite H, H0, H1. reflexivity.
Qed.

(** With DLAB set, no step writes LCR. *)
Lemma dlab_step_lcr (d : uart_mmio_device) (e : event) :
  dlab d = true -> lcr (com (step d e)) = lcr (com d).
Proof.
  intros H. destruct e as [va val|va val| | | |]; simpl; try reflexivity.
  - rewrite load_8_com. unfold load_8_regs. rewrite H.
    repeat match goal with
           | |- context [if ?b then _ else _] => destruct b
           end; reflexivity.
  - rewrite store_8_regs_com. unfold store_8_regs. rewrite H.
    repeat match goal with
           | |- context [if ?b then _ else _] => destruct b
           end; reflexivity.
  - unfold service.
    now destruct (nonzero (Z.land (ier (com d)) IER_ERBDA) && has_char (console d)).
Qed.

(** Once DLAB is set it stays set for the rest of the run. *)
Lemma dlab_sticky (es : list event) (d : uart_mmio_device) :
  dlab d = true -> dlab (run es d) = true.
Proof.
  revert d. induction es as [|e es IH]; intros d H; [exact H|].
  simpl. apply IH. unfold dlab. rewrite dlab_step_lcr by exact H. exact H.
Qed.

(** C3: addresses 2 to 7 are claimed to behave the same whether DLAB is
    set or clear.  [lcr_8bit] and [lcr_8bit_dlab] differ in the DLAB bit
    of LCR only.  With DLAB clear a store to address 7 writes SCR and a
    load of address 6 returns 0xa0; with DLAB set the same store writes
    nothing and the same load hands back the caller's value. *)
Theorem C3_dlab_bank_swallows_other_registers :
  dlab lcr_8bit = false /\
  dlab lcr_8bit_dlab = true /\
  lcr_8bit_dlab =
    set_com (set_lcr (Z.lor (lcr (com lcr_8bit)) LCR_DLAB) (com lcr_8bit)) lcr_8bit /\
  scr (com (store_8 lcr_8bit REG_SCR 0x55)) = 0x55 /\
  scr (com (store_8 lcr_8bit_dlab REG_SCR 0x55)) = 0 /\
  snd (load_8 lcr_8bit REG_MSR 0) = 0xa0 /\
  snd (load_8 lcr_8bit_dlab REG_MSR 0) = 0.
Proof. repeat split. Qed.

(** C5: the divisor stores go to DLL and DLM and leave RBR, THR and IER
    alone, as claimed.  The store of LCR = 0x03 that should leave the
    divisor bank is made while DLAB is set, so it is dropped: LCR stays
    0x83, and loads of addresses 0 and 1 still return DLL and DLM
    instead of RBR (0) and the interrupt identity (0x02). *)
Theorem C5_dlab_cannot_be_cleared :
  dll (com divisor_written) = 0x01 /\
  dlm (com divisor_written) = 0x03 /\
  rbr (com divisor_written) = rbr (com boot) /\
  thr (com divisor_written) = thr (com boot) /\
  ier (com divisor_written) = ier (com boot) /\
  divisor_left = divisor_written /\
  lcr (com divisor_left) = 0x83 /\
  dlab divisor_left = true /\
  snd (load_8 divisor_left REG_RBR 0) = 0x01 /\
  snd (load_8 divisor_left REG_IER 0) = 0x03 /\
  snd (load_8 lcr_8bit REG_RBR 0) = 0 /\
  snd (load_8 lcr_8bit REG_IER 0) = 0x02.
Proof. repeat split. Qed.

(** * Further properties of the device *)

Ltac case_ifs :=
  repeat match goal with
         | |- context [if ?b then _ else _] => destruct b eqn:?
         | |- context [let (_, _) := ?p in _] => destruct p eqn:?
         end.

Ltac unfold_regs :=
  unfold REG_RBR, REG_THR, REG_DLL, REG_IER, REG_DLM, REG_IIR, REG_FCR,
    REG_LCR, REG_MCR, REG_LSR, REG_MSR, REG_SCR in *.

(** A store keeps or extends the trace and touches nothing else but
    what [store_8_regs] touches. *)
Lemma store_8_console (d : uart_mmio_device) (va : UX) (val : u8) :
  console (store_8 d va val) = console (store_8_regs d va val).
Proof.
  unfold store_8. destruct (log_mmio d); [|reflexivity].
  unfold store_8_regs, dlab. simpl. case_ifs; reflexivity.
Qed.

Lemma store_8_plic (d : uart_mmio_device) (va : UX) (val : u8) :
  plic (store_8 d va val) = plic d.
Proof.
  unfold store_8, store_8_regs. destruct (log_mmio d); case_ifs; reflexivity.
Qed.

Lemma store_8_irq (d : uart_mmio_device) (va : UX) (val : u8) :
  irq (store_8 d va val) = irq d.
Proof.
  unfold store_8, store_8_regs. destruct (log_mmio d); case_ifs; reflexivity.
Qed.

Lemma load_8_irq (d : uart_mmio_device) (va : UX) (val : u8) :
  irq (fst (load_8 d va val)) = irq d.
Proof.
  unfold load_8, load_8_regs. case_ifs; reflexivity.
Qed.

(** ** Register read-back *)

(** X1: with DLAB clear, a value stored to the modem control register
    (address 4) or to the scratch register (address 7) is the value the
    next load of that address returns, whatever the caller's variable
    held. *)
Theorem X1_mcr_scr_read_back (d : uart_mmio_device) (va : UX) (v val : u8) :
  dlab d = false -> va = REG_MCR \/ va = REG_SCR ->
  snd (load_8 (store_8 d va v) va val) = v.
Proof.
  intros H Hva. rewrite load_8_val.
  assert (dlab (store_8 d va v) = false) as H'.
  { unfold dlab. rewrite store_8_regs_com. unfold store_8_regs. rewrite H.
    destruct Hva; subst va; exact H. }
  unfold load_8_regs. rewrite H'.
  destruct Hva; subst va; simpl; rewrite store_8_regs_com;
    unfold store_8_regs; rewrite H; reflexivity.
Qed.

Lemma X1_mcr_scr_read_back_witness :
  snd (load_8 (store_8 boot REG_SCR 0x5a) REG_SCR 0) = 0x5a.
Proof.
  apply (X1_mcr_scr_read_back boot REG_SCR 0x5a 0 eq_refl). right. reflexivity.
Defined.

(** X2: with DLAB clear, a value stored to the line control register is
    read back by the next load of address 3 only when its bit 0x80 is
    clear.  When the stored value has bit 0x80 set, LCR holds it but the
    load of address 3 assigns nothing: the caller's variable keeps the
    value it had. *)
Theorem X2_lcr_read_back (d : uart_mmio_device) (v val : u8) :
  dlab d = false ->
  lcr (com (store_8 d REG_LCR v)) = v /\
  snd (load_8 (store_8 d REG_LCR v) REG_LCR val) =
    (if nonzero (Z.land v LCR_DLAB) then val else v).
Proof.
  intros H.
  assert (com (store_8 d REG_LCR v) = set_lcr v (com d)) as Hc.
  { rewrite store_8_regs_com. unfold store_8_regs. rewrite H. reflexivity. }
  split; [rewrite Hc; reflexivity|].
  rewrite load_8_val. unfold load_8_regs, dlab. rewrite Hc. simpl.
  destruct (nonzero (Z.land v LCR_DLAB)); reflexivity.
Qed.

Lemma X2_lcr_read_back_witness :
  snd (load_8 (store_8 boot REG_LCR 0x03) REG_LCR 0xee) = 0x03 /\
  snd (load_8 (store_8 boot REG_LCR 0x83) REG_LCR 0xee) = 0xee.
Proof.
  split.
  - apply (X2_lcr_read_back boot 0x03 0xee eq_refl).
  - apply (X2_lcr_read_back boot 0x83 0xee eq_refl).
Defined.

(** X3: with DLAB set, a store to address 0 or 1 writes DLL or DLM and
    nothing else: no other register changes, no byte is handed to the
    console and no interrupt is requested; the next load of the same
    address returns the stored value. *)
Theorem X3_divisor_latch_read_back (d : uart_mmio_device) (v val : u8) :
  dlab d = true ->
  com (store_8 d REG_DLL v) = set_dll v (com d) /\
  com (store_8 d REG_DLM v) = set_dlm v (com d) /\
  console (store_8 d REG_DLL v) = console d /\
  console (store_8 d REG_DLM v) = console d /\
  snd (load_8 (store_8 d REG_DLL v) REG_DLL val) = v /\
  snd (load_8 (store_8 d REG_DLM v) REG_DLM val) = v.
Proof.
  intros H.
  assert (com (store_8 d REG_DLL v) = set_dll v (com d)) as H0
      by (rewrite store_8_regs_com; unfold store_8_regs; rewrite H; reflexivity).
  assert (com (store_8 d REG_DLM v) = set_dlm v (com d)) as H1
      by (rewrite store_8_regs_com; unfold store_8_regs; rewrite H; reflexivity).
  repeat split; try assumption.
  - rewrite store_8_console. unfold store_8_regs. rewrite H. reflexivity.
  - rewrite store_8_console. unfold store_8_regs. rewrite H. reflexivity.
  - rewrite load_8_val. unfold load_8_regs, dlab. rewrite H0. simpl.
    unfold dlab in H. rewrite H. reflexivity.
  - rewrite load_8_val. unfold load_8_regs, dlab. rewrite H1. simpl.
    unfold dlab in H. rewrite H. reflexivity.
Qed.

Lemma X3_divisor_latch_read_back_witness :
  snd (load_8 (store_8 lcr_8bit_dlab REG_DLL 0x0c) REG_DLL 0) = 0x0c /\
  pipe (console (store_8 lcr_8bit_dlab REG_DLL 0x0c)) = [].
Proof.
  destruct (X3_divisor_latch_read_back lcr_8bit_dlab 0x0c 0 eq_refl)
    as (_ & _ & Hc & _ & Hl & _).
  split; [exact Hl | rewrite Hc; reflexivity].
Defined.

(** ** The transmit path *)



Lemma step_out_stream (d : uart_mmio_device) (e : event) :
  out_stream (console (step d e)) =
  out_stream (console d) ++ thr_bytes [e] d.
Proof.
  unfold out_stream.
  destruct e as [va val|va val| |stdin| |]; simpl; rewrite ?app_nil_r.
  - rewrite load_8_console. unfold load_8_regs. rewrite read_char_items.
    destruct (queue_atomic.items (queue (console d))); case_ifs; reflexivity.
  - rewrite store_8_console. unfold store_8_regs.
    destruct (dlab d); simpl.
    + case_ifs; simpl; rewrite ?app_nil_r; reflexivity.
    + destruct (va =? REG_THR) eqn:Hva; simpl.
      * rewrite app_assoc. reflexivity.
      * case_ifs; simpl; rewrite ?app_nil_r; reflexivity.
  - unfold service. case_ifs; reflexivity.
  - unfold mainloop_iter.
    destruct (running (console d)); simpl; [|reflexivity].
    destruct (pipe (console d)) as [|c rest] eqn:Hp; simpl.
    + case_ifs; try destruct stdin; simpl; rewrite ?Hp; reflexivity.
    + case_ifs; try destruct stdin; simpl; rewrite <- ?app_assoc; reflexivity.
  - reflexivity.
  - reflexivity.
Qed.

(** X5: over any run, the bytes relayed to the terminal followed by
    the bytes still in the pipe are the earlier ones followed by exactly
    the bytes stored to address 0 while DLAB was clear, in store order:
    the relay of the main loop drops, repeats and reorders nothing. *)
Theorem X5_transmit_order (es : list event) (d : uart_mmio_device) :
  out_stream (console (run es d)) = out_stream (console d) ++ thr_bytes es d.
Proof.
  revert d. induction es as [|e es IH]; intros d.
  - simpl. rewrite app_nil_r. reflexivity.
  - change (run (e :: es) d) with (run es (step d e)).
    rewrite IH, step_out_stream. simpl. rewrite app_nil_r.
    rewrite <- app_assoc. reflexivity.
Qed.

(** ** Accesses without effect *)

(** X6: a store to the FIFO control, line status or modem status
    register (addresses 2, 5, 6), or to an address outside 0..7, changes
    no register, hands no byte to the console and requests no interrupt,
    in either bank. *)
Theorem X6_ignored_stores (d : uart_mmio_device) (va : UX) (val : u8) :
  va = REG_FCR \/ va = REG_LSR \/ va = REG_MSR \/ va < 0 \/ 7 < va ->
  com (store_8 d va val) = com d /\
  console (store_8 d va val) = console d /\
  plic (store_8 d va val) = plic d.
Proof.
  intros Hva.
  rewrite store_8_regs_com, store_8_console, store_8_plic.
  unfold store_8_regs. unfold_regs.
  repeat match goal with
         | |- context [?a =? ?b] => destruct (Z.eqb_spec a b)
         end;
    destruct (dlab d); try (repeat split; reflexivity); lia.
Qed.

Lemma X6_ignored_stores_witness :
  com (store_8 key_typed REG_FCR 0xc7) = com key_typed /\
  console (store_8 key_typed 8 0xff) = console key_typed.
Proof.
  split.
  - apply (X6_ignored_stores key_typed REG_FCR 0xc7). left. reflexivity.
  - apply (X6_ignored_stores key_typed 8 0xff). right. right. right. right. reflexivity.
Defined.

(** X7: the only load with an effect on the device is the load of
    address 0 with DLAB clear.  Every other load leaves the registers
    and the console as they are, and no load requests an interrupt.  With
    DLAB clear a load from an address outside 0..7 returns 0. *)
Theorem X7_loads_without_effect (d : uart_mmio_device) (va : UX) (val : u8) :
  (dlab d = true \/ va <> REG_RBR ->
     com (fst (load_8 d va val)) = com d /\
     console (fst (load_8 d va val)) = console d) /\
  plic (fst (load_8 d va val)) = plic d /\
  (dlab d = false -> va < 0 \/ 7 < va -> snd (load_8 d va val) = 0).
Proof.
  rewrite load_8_com, load_8_console, load_8_plic, load_8_val.
  unfold load_8_regs. unfold_regs.
  split; [|split; [reflexivity|]].
  - intros [H | H].
    + rewrite H. case_ifs; split; reflexivity.
    + destruct (Z.eqb_spec va 0); [contradiction|].
      case_ifs; split; reflexivity.
  - intros H Hva. rewrite H.
    repeat match goal with
           | |- context [?a =? ?b] => destruct (Z.eqb_spec a b)
           end; try lia; reflexivity.
Qed.

Lemma X7_loads_without_effect_witness :
  console (fst (load_8 key_typed REG_LSR 0)) = console key_typed /\
  snd (load_8 key_typed 8 0x77) = 0.
Proof.
  destruct (X7_loads_without_effect key_typed REG_LSR 0) as (H1 & _ & _).
  destruct (X7_loads_without_effect key_typed 8 0x77) as (_ & _ & H2).
  split.
  - apply H1. right. discriminate.
  - apply H2; [reflexivity | right; reflexivity].
Defined.

(** ** Interrupt requests over a run *)

Lemma step_irq (d : uart_mmio_device) (e : event) : irq (step d e) = irq d.
Proof.
  destruct e; simpl; try reflexivity.
  - apply load_8_irq.
  - apply store_8_irq.
  - unfold service. case_ifs; reflexivity.
Qed.

Lemma step_plic (d : uart_mmio_device) (e : event) :
  plic (step d e) = plic d \/
  (e = ev_service /\ plic (step d e) = plic d ++ [irq d]).
Proof.
  destruct e; simpl; try (left; reflexivity).
  - left. apply load_8_plic.
  - left. apply store_8_plic.
  - unfold service. case_ifs; [right; split|left]; reflexivity.
Qed.

(** X8: the interrupt line of the device never changes, and over any
    run the requests added at the interrupt controller are requests for
    that line only, at most one for each [service] call of the run:
    loads, stores and the console thread request nothing. *)
Theorem X8_requests_only_from_service (es : list event) (d : uart_mmio_device) :
  irq (run es d) = irq d /\
  exists n : nat,
    (n <= services es)%nat /\ plic (run es d) = plic d ++ repeat (irq d) n.
Proof.
  revert d. induction es as [|e es IH]; intros d.
  - split; [reflexivity|]. exists 0%nat. simpl. rewrite app_nil_r. split; [lia|reflexivity].
  - change (run (e :: es) d) with (run es (step d e)).
    destruct (IH (step d e)) as [Hi [n [Hn Hp]]].
    rewrite step_irq in Hi, Hp. split; [exact Hi|].
    destruct (step_plic d e) as [He | [He Hs]].
    + exists n. rewrite Hp, He. split; [|reflexivity].
      unfold services in *. simpl. destruct e; simpl; lia.
    + exists (S n). rewrite Hp, Hs, <- app_assoc. subst e.
      split; [unfold services in *; simpl; lia | reflexivity].
Qed.

(** ** Draining the receive queue *)

Lemma load_rbr_cons (d : uart_mmio_device) (val c : u8) (rest : list u8) :
  dlab d = false ->
  queue_atomic.items (queue (console d)) = c :: rest ->
  snd (load_8 d REG_RBR val) = c /\
  com (fst (load_8 d REG_RBR val)) = set_rbr c (com d) /\
  queue_atomic.items (queue (console (fst (load_8 d REG_RBR val)))) = rest.
Proof.
  intros H Hq.
  rewrite load_8_val, load_8_com, load_8_console.
  unfold load_8_regs. rewrite H. simpl.
  rewrite has_char_items, read_char_items, Hq. simpl. repeat split.
Qed.

Lemma load_rbr_nil (d : uart_mmio_device) (val : u8) :
  dlab d = false ->
  queue_atomic.items (queue (console d)) = [] ->
  snd (load_8 d REG_RBR val) = rbr (com d) /\
  com (fst (load_8 d REG_RBR val)) = com d /\
  console (fst (load_8 d REG_RBR val)) = console d.
Proof.
  intros H Hq.
  rewrite load_8_val, load_8_com, load_8_console.
  unfold load_8_regs. rewrite H. simpl.
  rewrite has_char_items, Hq. simpl. repeat split.
Qed.

Lemma last_default_irrelevant {A : Type} (l : list A) (x a b : A) :
  last (x :: l) a = last (x :: l) b.
Proof.
  revert x. induction l as [|y l IH]; intros x; [reflexivity|].
  change (last (y :: l) a = last (y :: l) b). apply IH.
Qed.

Lemma last_cons_default {A : Type} (l : list A) (c a : A) :
  last l c = last (c :: l) a.
Proof.
  destruct l as [|x l]; [reflexivity|].
  change (last (x :: l) c = last (x :: l) a). apply last_default_irrelevant.
Qed.

Lemma rbr_drain (bs : list u8) (d : uart_mmio_device) (val : u8) :
  dlab d = false ->
  queue_atomic.items (queue (console d)) = bs ->
  snd (load_rbr_n (length bs) d val) = bs /\
  has_char (console (fst (load_rbr_n (length bs) d val))) = false /\
  dlab (fst (load_rbr_n (length bs) d val)) = false /\
  rbr (com (fst (load_rbr_n (length bs) d val))) = last bs (rbr (com d)) /\
  snd (load_8 (fst (load_rbr_n (length bs) d val)) REG_RBR val) =
    last bs (rbr (com d)).
Proof.
  revert d. induction bs as [|c rest IH]; intros d H Hq.
  - simpl. rewrite has_char_items, Hq.
    destruct (load_rbr_nil d val H Hq) as (Hv & _ & _).
    repeat split; assumption.
  - destruct (load_rbr_cons d val c rest H Hq) as (Hv & Hc & Hi).
    assert (dlab (fst (load_8 d REG_RBR val)) = false) as H'
        by (unfold dlab; rewrite Hc; exact H).
    specialize (IH (fst (load_8 d REG_RBR val)) H' Hi).
    change (length (c :: rest)) with (S (length rest)).
    rewrite <- !(last_cons_default rest c (rbr (com d))).
    cbn [load_rbr_n].
    destruct (load_8 d REG_RBR val) as [d1 v] eqn:Hl. simpl in *. subst v.
    destruct (load_rbr_n (length rest) d1 val) as [d2 vs] eqn:Hn. simpl in *.
    destruct IH as (Hvs & Hh & Hd & Hr & Hlast).
    rewrite Hc in Hr, Hlast. simpl in Hr, Hlast.
    repeat split; try assumption. rewrite Hvs. reflexivity.
Qed.

(** X9: with DLAB clear and the bytes [bs] queued, as many loads of
    address 0 as there are bytes return exactly [bs], oldest first, and
    leave the queue empty.  A further load returns the last byte again
    (the value cached in RBR). *)
Theorem X9_rbr_drains_queue_in_order (bs : list u8) (d : uart_mmio_device) (val : u8) :
  dlab d = false ->
  queue_atomic.items (queue (console d)) = bs ->
  snd (load_rbr_n (length bs) d val) = bs /\
  has_char (console (fst (load_rbr_n (length bs) d val))) = false /\
  dlab (fst (load_rbr_n (length bs) d val)) = false /\
  rbr (com (fst (load_rbr_n (length bs) d val))) = last bs (rbr (com d)) /\
  snd (load_8 (fst (load_rbr_n (length bs) d val)) REG_RBR val) =
    last bs (rbr (com d)).
Proof. apply rbr_drain. Qed.

Lemma X9_rbr_drains_queue_in_order_witness :
  snd (load_rbr_n 2 (step key_typed (ev_mainloop (Some 0x42))) 0) = [0x41; 0x42] /\
  snd (load_8 (fst (load_rbr_n 2 (step key_typed (ev_mainloop (Some 0x42))) 0)) REG_RBR 0)
    = 0x42.
Proof.
  destruct (X9_rbr_drains_queue_in_order [0x41; 0x42]
              (step key_typed (ev_mainloop (Some 0x42))) 0 eq_refl eq_refl)
    as (H1 & _ & _ & _ & H2).
  split; [exact H1 | exact H2].
Defined.

(** ** From the host terminal to the guest *)

Lemma mainloop_queues (ct : console_thread) (c : u8) :
  running ct = true -> suspended ct = false ->
  queue_atomic.size (queue ct) < queue_atomic.capacity (queue ct) ->
  queue_atomic.items (queue (mainloop_iter (Some c) ct)) =
    queue_atomic.items (queue ct) ++ [c] /\
  queue_atomic.capacity (queue (mainloop_iter (Some c) ct)) =
    queue_atomic.capacity (queue ct) /\
  running (mainloop_iter (Some c) ct) = true /\
  suspended (mainloop_iter (Some c) ct) = false.
Proof.
  intros Hr Hs Hlt. apply Z.ltb_lt in Hlt.
  unfold mainloop_iter. rewrite Hr. simpl.
  destruct (pipe ct); simpl; rewrite Hs; simpl;
    unfold queue_atomic.push_back; rewrite Hlt; simpl; repeat split; assumption.
Qed.

Lemma typed_bytes_queued (bs : list u8) (d : uart_mmio_device) :
  running (console d) = true -> suspended (console d) = false ->
  queue_atomic.size (queue (console d)) + Z.of_nat (length bs)
    <= queue_atomic.capacity (queue (console d)) ->
  queue_atomic.items
    (queue (console (run (map (fun c => ev_mainloop (Some c)) bs) d))) =
    queue_atomic.items (queue (console d)) ++ bs /\
  com (run (map (fun c => ev_mainloop (Some c)) bs) d) = com d.
Proof.
  revert d. induction bs as [|c bs IH]; intros d Hr Hs Hcap.
  - simpl. rewrite app_nil_r. split; reflexivity.
  - change (run (map (fun c => ev_mainloop (Some c)) (c :: bs)) d)
      with (run (map (fun c => ev_mainloop (Some c)) bs)
                (step d (ev_mainloop (Some c)))).
    change (length (c :: bs)) with (S (length bs)) in Hcap.
    destruct (mainloop_queues (console d) c Hr Hs) as (Hi & Hc & Hr' & Hs'); [lia|].
    destruct (IH (step d (ev_mainloop (Some c)))) as [Hq Hcom].
    + exact Hr'.
    + exact Hs'.
    + simpl. rewrite Hc. unfold queue_atomic.size in *. rewrite Hi, length_app.
      simpl. lia.
    + rewrite Hq, Hcom. simpl. rewrite Hi, <- app_assoc. split; reflexivity.
Qed.

(** X10: with the console running, not suspended, its queue empty and
    DLAB clear, bytes that the main loop reads from the terminal one per
    turn, no more of them than the queue holds, are returned by the same
    number of loads of address 0 in the order they were typed. *)
Theorem X10_typed_bytes_reach_guest (bs : list u8) (d : uart_mmio_device) (val : u8) :
  dlab d = false ->
  running (console d) = true ->
  suspended (console d) = false ->
  queue_atomic.items (queue (console d)) = [] ->
  Z.of_nat (length bs) <= queue_atomic.capacity (queue (console d)) ->
  snd (load_rbr_n (length bs)
         (run (map (fun c => ev_mainloop (Some c)) bs) d) val) = bs.
Proof.
  intros Hd Hr Hs Hq Hcap.
  destruct (typed_bytes_queued bs d Hr Hs) as [Hi Hc].
  - unfold queue_atomic.size. rewrite Hq. simpl. lia.
  - rewrite Hq in Hi. simpl in Hi.
    apply rbr_drain; [|exact Hi].
    unfold dlab. rewrite Hc. exact Hd.
Qed.

Lemma X10_typed_bytes_reach_guest_witness :
  snd (load_rbr_n 3 (run [ev_mainloop (Some 0x72); ev_mainloop (Some 0x76);
                          ev_mainloop (Some 0x38)] boot) 0) = [0x72; 0x76; 0x38].
Proof.
  apply (X10_typed_bytes_reach_guest [0x72; 0x76; 0x38] boot 0);
    try reflexivity.
  simpl. lia.
Defined.



(** ** Registers hold bytes *)

Lemma to_u8_is_u8 (z : Z) : is_u8 (to_u8 z).
Proof. unfold is_u8, to_u8. apply Z.mod_pos_bound. reflexivity. Qed.

Lemma step_u8 (d : uart_mmio_device) (e : event) :
  device_u8 d -> event_u8 e -> device_u8 (step d e).
Proof.
  unfold device_u8, com_u8.
  intros (Hc & Hq & Hp & Ht) He.
  assert (forall (l : list u8) (c : u8),
             Forall is_u8 l -> is_u8 c -> Forall is_u8 (l ++ [c])) as Hsnoc.
  { intros l c Hl Hcu. apply Forall_app.
    split; [assumption | constructor; [assumption | constructor]]. }
  destruct e as [va val|va val| |stdin| |]; simpl in *.
  - rewrite load_8_com, load_8_console. unfold load_8_regs.
    rewrite read_char_items.
    assert (is_u8 0) as Hz by (unfold is_u8; lia).
    destruct (queue_atomic.items (queue (console d))) as [|c rest] eqn:Hi;
      [|inversion Hq; subst];
      case_ifs; simpl; rewrite ?Hi; tauto.
  - rewrite store_8_regs_com, store_8_console. unfold store_8_regs.
    pose proof (to_u8_is_u8 (Z.land val IER_MASK)).
    pose proof (Hsnoc _ _ Hp He).
    case_ifs; simpl; tauto.
  - unfold service. case_ifs; simpl; tauto.
  - unfold mainloop_iter.
    destruct (running (console d)); simpl; [|tauto].
    assert (forall c, is_u8 c -> Forall is_u8
              (queue_atomic.items (queue_atomic.push_back c (queue (console d))))) as Hpush.
    { intros c Hcu. unfold queue_atomic.push_back. case_ifs; simpl; [|assumption].
      apply Hsnoc; assumption. }
    destruct (pipe (console d)) as [|c rest] eqn:Hpipe; simpl.
    + destruct (suspended (console d)); [rewrite Hpipe; tauto|].
      destruct stdin as [c|]; simpl; rewrite ?Hpipe; [|tauto].
      pose proof (Hpush c He). tauto.
    + inversion Hp; subst.
      pose proof (Hsnoc _ _ Ht H1).
      destruct (suspended (console d)); [tauto|].
      destruct stdin as [c'|]; simpl; [|tauto].
      pose proof (Hpush c' He). tauto.
  - tauto.
  - tauto.
Qed.

Lemma load_8_u8 (d : uart_mmio_device) (va : UX) (val : u8) :
  device_u8 d -> is_u8 val -> is_u8 (snd (load_8 d va val)).
Proof.
  unfold device_u8, com_u8.
  intros (Hc & Hq & _) Hv.
  rewrite load_8_val. unfold load_8_regs. rewrite read_char_items.
  destruct (queue_atomic.items (queue (console d))) as [|c rest] eqn:Hi;
    [|inversion Hq; subst];
    case_ifs; simpl; try tauto; try apply to_u8_is_u8;
    unfold is_u8, IIR_RD_LSR, IIR_TX_RDY; lia.
Qed.

(** X12: when the emulator stores bytes and the terminal delivers
    bytes, every state a run from the constructor reaches keeps a byte
    (0..255) in each register, in each queue slot and in each pipe and
    terminal position, and a load into a byte variable returns a byte. *)
Theorem X12_registers_hold_bytes (es : list event) (log : bool) (line : UX) :
  Forall event_u8 es ->
  device_u8 (run es (uart_mmio_device_new log line)) /\
  forall (va : UX) (val : u8),
    is_u8 val ->
    is_u8 (snd (load_8 (run es (uart_mmio_device_new log line)) va val)).
Proof.
  intros Hes.
  assert (device_u8 (run es (uart_mmio_device_new log line))) as Hd.
  { assert (device_u8 (uart_mmio_device_new log line)) as H0.
    { unfold device_u8, com_u8, is_u8. simpl.
      repeat split; try lia; constructor. }
    revert H0. generalize (uart_mmio_device_new log line).
    induction Hes as [|e es He Hes IH]; intros d Hd; [exact Hd|].
    simpl. apply IH. apply step_u8; assumption. }
  split; [exact Hd|].
  intros va val Hv. apply load_8_u8; assumption.
Qed.

Lemma X12_registers_hold_bytes_witness :
  is_u8 (snd (load_8 (run [ev_store REG_IER 0xff; ev_mainloop (Some 0xc3)] boot)
                     REG_RBR 0)).
Proof.
  destruct (X12_registers_hold_bytes
              [ev_store REG_IER 0xff; ev_mainloop (Some 0xc3)] false 10) as [_ H].
  - repeat constructor; unfold is_u8; lia.
  - apply H. unfold is_u8. lia.
Defined.

(** ** The register trace *)

(** X13: the trace flag only adds lines to the output.  With the flag
    set a store prints one line with its address and value, and a load
    one line with its address and the value it returns; with the flag
    clear nothing is printed.  The registers, the console, the interrupt
    requests and the value a load returns are the same either way. *)
Theorem X13_trace_is_observation_only
  (d : uart_mmio_device) (b : bool) (va : UX) (val : u8) :
  com (store_8 (set_log_mmio b d) va val) = com (store_8 d va val) /\
  console (store_8 (set_log_mmio b d) va val) = console (store_8 d va val) /\
  plic (store_8 (set_log_mmio b d) va val) = plic (store_8 d va val) /\
  snd (load_8 (set_log_mmio b d) va val) = snd (load_8 d va val) /\
  com (fst (load_8 (set_log_mmio b d) va val)) = com (fst (load_8 d va val)) /\
  console (fst (load_8 (set_log_mmio b d) va val)) = console (fst (load_8 d va val)) /\
  printed (store_8 (set_log_mmio b d) va val) =
    printed d ++ (if b then [line_store va val] else []) /\
  printed (fst (load_8 (set_log_mmio b d) va val)) =
    printed d ++ (if b then [line_load va (snd (load_8 d va val))] else []).
Proof.
  rewrite !store_8_regs_com, !store_8_console, !store_8_plic,
    !load_8_val, !load_8_com, !load_8_console.
  repeat split.
  - unfold store_8_regs, dlab. simpl. case_ifs; reflexivity.
  - unfold store_8_regs, dlab. simpl. case_ifs; reflexivity.
  - unfold load_8_regs, dlab. simpl. case_ifs; reflexivity.
  - unfold load_8_regs, dlab. simpl. case_ifs; reflexivity.
  - unfold load_8_regs, dlab. simpl. case_ifs; reflexivity.
  - unfold store_8, store_8_regs, dlab. simpl.
    destruct b; simpl; case_ifs; simpl; rewrite ?app_nil_r; reflexivity.
  - unfold load_8, load_8_regs, dlab. simpl.
    destruct b; simpl; case_ifs; simpl in *; try discriminate;
      rewrite ?app_nil_r; reflexivity.
Qed.

(** ** Once DLAB is set *)

Lemma dlab_step_frozen (d : uart_mmio_device) (e : event) :
  dlab d = true ->
  (rbr (com (step d e)), thr (com (step d e)), ier (com (step d e)),
   lcr (com (step d e)), mcr (com (step d e)), scr (com (step d e))) =
  (rbr (com d), thr (com d), ier (com d), lcr (com d), mcr (com d), scr (com d)) /\
  (exists l, queue_atomic.items (queue (console (step d e))) =
             queue_atomic.items (queue (console d)) ++ l) /\
  thr_bytes [e] d = [].
Proof.
  intros H. destruct e as [va val|va val| |stdin| |]; simpl.
  - rewrite load_8_com, load_8_console. unfold load_8_regs. rewrite H.
    repeat split; [case_ifs; reflexivity|].
    exists []. rewrite app_nil_r. case_ifs; reflexivity.
  - rewrite store_8_regs_com, store_8_console. unfold store_8_regs. rewrite H.
    repeat split; [case_ifs; reflexivity|].
    exists []. rewrite app_nil_r. case_ifs; reflexivity.
  - unfold service. repeat split; [case_ifs; reflexivity|].
    exists []. rewrite app_nil_r. case_ifs; reflexivity.
  - repeat split. unfold mainloop_iter, queue_atomic.push_back.
    destruct (running (console d)); simpl; [|exists []; now rewrite app_nil_r].
    destruct (pipe (console d)); simpl;
      (destruct (suspended (console d)); simpl;
       [exists []; now rewrite app_nil_r|]);
      (destruct stdin as [c|]; simpl; [|exists []; now rewrite app_nil_r]);
      case_ifs; simpl; (exists [c] + (exists []; rewrite app_nil_r)); reflexivity.
  - repeat split. exists []. now rewrite app_nil_r.
  - repeat split. exists []. now rewrite app_nil_r.
Qed.

(** X14: from a state with DLAB set, no run of loads, stores, service
    calls and console turns changes RBR, THR, IER, LCR, MCR or SCR, so
    DLAB stays set; no queued byte is consumed, and no byte is handed to
    the console for the terminal.  Only DLL and DLM can still be
    written. *)
Theorem X14_dlab_bank_is_final (es : list event) (d : uart_mmio_device) :
  dlab d = true ->
  dlab (run es d) = true /\
  (rbr (com (run es d)), thr (com (run es d)), ier (com (run es d)),
   lcr (com (run es d)), mcr (com (run es d)), scr (com (run es d))) =
  (rbr (com d), thr (com d), ier (com d), lcr (com d), mcr (com d), scr (com d)) /\
  (exists l, queue_atomic.items (queue (console (run es d))) =
             queue_atomic.items (queue (console d)) ++ l) /\
  thr_bytes es d = [].
Proof.
  revert d. induction es as [|e es IH]; intros d H.
  - repeat split; [exact H|]. exists []. now rewrite app_nil_r.
  - change (run (e :: es) d) with (run es (step d e)).
    destruct (dlab_step_frozen d e H) as (Hregs & [l Hl] & Hthr).
    assert (dlab (step d e) = true) as H'.
    { unfold dlab. injection Hregs as _ _ _ Hlcr _ _. rewrite Hlcr. exact H. }
    destruct (IH (step d e) H') as (Hd & Hr & [l' Hl'] & Ht).
    repeat split.
    + exact Hd.
    + rewrite Hr. exact Hregs.
    + exists (l ++ l'). rewrite Hl', Hl, app_assoc. reflexivity.
    + cbn [thr_bytes] in *. rewrite app_nil_r in Hthr.
      rewrite Hthr, Ht. reflexivity.
Qed.

Lemma X14_dlab_bank_is_final_witness :
  dlab (run [ev_store REG_LCR 0x03; ev_mainloop (Some 0x41); ev_load REG_RBR 0]
            lcr_8bit_dlab) = true /\
  thr_bytes [ev_store REG_THR 0x68] lcr_8bit_dlab = [].
Proof.
  split.
  - apply (X14_dlab_bank_is_final
             [ev_store REG_LCR 0x03; ev_mainloop (Some 0x41); ev_load REG_RBR 0]
             lcr_8bit_dlab eq_refl).
  - apply (X14_dlab_bank_is_final [ev_store REG_THR 0x68] lcr_8bit_dlab eq_refl).
Defined.

(** ** Interrupt policy *)

Lemma service_signals (d : uart_mmio_device) :
  Z.testbit (ier (com d)) 0 = true -> has_char (console d) = true ->
  service d = signal_irq (irq d) d.
Proof.
  intros Hb Hc. unfold service, IER_ERBDA.
  rewrite nonzero_land_1, Hb, Hc. reflexivity.
Qed.

Lemma service_quiet (d : uart_mmio_device) :
  Z.testbit (ier (com d)) 0 && has_char (console d) = false -> service d = d.
Proof.
  intros H. unfold service, IER_ERBDA. rewrite nonzero_land_1, H. reflexivity.
Qed.

(** X15: [service] does not consume the condition it reports.  While
    bit 0 of IER is set and input is queued, [n] calls in a row place
    [n] requests for the line and leave registers and console alone.
    Once loads of address 0 (DLAB clear) have drained the queue,
    [service] requests nothing and a load of address 5 returns 0x20. *)
Theorem X15_service_is_level_triggered (n : nat) (d : uart_mmio_device) (val : u8) :
  Z.testbit (ier (com d)) 0 = true ->
  has_char (console d) = true ->
  (plic (run (repeat ev_service n) d) = plic d ++ repeat (irq d) n /\
   com (run (repeat ev_service n) d) = com d /\
   console (run (repeat ev_service n) d) = console d) /\
  (dlab d = false ->
   let drained :=
     fst (load_rbr_n (length (queue_atomic.items (queue (console d)))) d val) in
   service drained = drained /\ snd (load_8 drained REG_LSR val) = 0x20).
Proof.
  intros Hb Hc. split.
  - revert d Hb Hc. induction n as [|n IH]; intros d Hb Hc.
    + simpl. rewrite app_nil_r. repeat split.
    + change (run (repeat ev_service (S n)) d)
        with (run (repeat ev_service n) (service d)).
      rewrite (service_signals d Hb Hc).
      destruct (IH (signal_irq (irq d) d) Hb Hc) as (Hp & Hcm & Hk).
      rewrite Hp, Hcm, Hk. simpl. rewrite <- app_assoc. repeat split.
  - intros Hd drained.
    destruct (rbr_drain (queue_atomic.items (queue (console d))) d val Hd eq_refl)
      as (_ & Hh & Hd' & _).
    fold drained in Hh, Hd'. split.
    + apply service_quiet. rewrite Hh. apply andb_false_r.
    + rewrite load_8_val. unfold load_8_regs. rewrite Hd', Hh. reflexivity.
Qed.

Lemma X15_service_is_level_triggered_witness :
  plic (run (repeat ev_service 3) (store_8 key_typed REG_IER 0x01)) = [10; 10; 10] /\
  service (fst (load_rbr_n 1 (store_8 key_typed REG_IER 0x01) 0)) =
    fst (load_rbr_n 1 (store_8 key_typed REG_IER 0x01) 0).
Proof.
  destruct (X15_service_is_level_triggered 3 (store_8 key_typed REG_IER 0x01) 0
              eq_refl eq_refl) as [(H1 & _) H2].
  split; [exact H1 | exact (proj1 (H2 eq_refl))].
Defined.

Lemma land_mask_bit0 (v : Z) : Z.land (Z.land v IER_MASK) 1 = Z.land v 1.
Proof. rewrite <- Z.land_assoc. reflexivity. Qed.

(** X16: of the four enable bits a store to IER keeps, only bit 0 has
    an effect.  With DLAB clear, after a store of [v] to address 1 the
    next [service] places one request when bit 0 of [v] is set and input
    is queued, and none otherwise, whatever bits 1 to 3 of [v] are: the
    transmitter-empty, line-status and modem-status interrupts are never
    requested. *)
Theorem X16_only_receive_interrupt (d : uart_mmio_device) (v : u8) :
  dlab d = false ->
  plic (service (store_8 d REG_IER v)) =
    plic d ++ (if Z.testbit v 0 && has_char (console d) then [irq d] else []).
Proof.
  intros H.
  assert (console (store_8 d REG_IER v) = console d) as Hk
      by (rewrite store_8_console; unfold store_8_regs; rewrite H; reflexivity).
  unfold service, IER_ERBDA.
  rewrite (store_ier d v H), Hk. cbn [ier set_ier].
  rewrite land_mask_bit0, nonzero_land_1.
  destruct (Z.testbit v 0 && has_char (console d)); simpl.
  - rewrite store_8_plic, store_8_irq. reflexivity.
  - rewrite store_8_plic, app_nil_r. reflexivity.
Qed.

Lemma X16_only_receive_interrupt_witness :
  plic (service (store_8 key_typed REG_IER 0x0e)) = [] /\
  plic (service (store_8 key_typed REG_IER 0x0f)) = [10].
Proof.
  split.
  - apply (X16_only_receive_interrupt key_typed 0x0e eq_refl).
  - apply (X16_only_receive_interrupt key_typed 0x0f eq_refl).
Defined.

(** ** Registers that are never written *)

Lemma step_derived_regs (d : uart_mmio_device) (e : event) :
  (iir (com (step d e)), fcr (com (step d e)),
   lsr (com (step d e)), msr (com (step d e))) =
  (iir (com d), fcr (com d), lsr (com d), msr (com d)).
Proof.
  destruct e as [va val|va val| |stdin| |]; simpl; try reflexivity.
  - rewrite load_8_com. unfold load_8_regs. case_ifs; reflexivity.
  - rewrite store_8_regs_com. unfold store_8_regs. case_ifs; reflexivity.
  - unfold service. case_ifs; reflexivity.
Qed.

(** X17: no load, store, service call or console turn writes the [iir],
    [fcr], [lsr] and [msr] fields of [com]: a value stored to address 2,
    5 or 6 is not kept, and what a load of address 2, 5 or 6 returns is
    computed at the load.  In every state a run from the constructor
    reaches these four fields are still 0. *)
Theorem X17_derived_registers_stay_zero (es : list event) (d : uart_mmio_device) :
  (iir (com (run es d)), fcr (com (run es d)),
   lsr (com (run es d)), msr (com (run es d))) =
  (iir (com d), fcr (com d), lsr (com d), msr (com d)) /\
  forall (log : bool) (line : UX),
    (iir (com (run es (uart_mmio_device_new log line))),
     fcr (com (run es (uart_mmio_device_new log line))),
     lsr (com (run es (uart_mmio_device_new log line))),
     msr (com (run es (uart_mmio_device_new log line)))) = (0, 0, 0, 0).
Proof.
  assert (forall d0,
             (iir (com (run es d0)), fcr (com (run es d0)),
              lsr (com (run es d0)), msr (com (run es d0))) =
             (iir (com d0), fcr (com d0), lsr (com d0), msr (com d0))) as H.
  { induction es as [|e es IH]; intros d0; [reflexivity|].
    change (run (e :: es) d0) with (run es (step d0 e)).
    rewrite IH. apply step_derived_regs. }
  split; [apply H|]. intros log line. rewrite H. reflexivity.
Qed.

(** ** Relay to the terminal *)

Lemma mainloop_relays_one (stdin : option u8) (ct : console_thread)
      (c : u8) (rest : list u8) :
  running ct = true -> pipe ct = c :: rest ->
  running (mainloop_iter stdin ct) = true /\
  pipe (mainloop_iter stdin ct) = rest /\
  tty (mainloop_iter stdin ct) = tty ct ++ [c].
Proof.
  intros Hr Hp. unfold mainloop_iter. rewrite Hr, Hp. simpl.
  destruct (suspended ct); [repeat split; assumption|].
  destruct stdin; repeat split; assumption.
Qed.

(** X18: a running main loop relays one waiting byte per turn, oldest
    first, suspended or not.  After as many turns as bytes were waiting
    in the pipe, the pipe is empty and the terminal has received those
    bytes in the order they were written. *)
Theorem X18_relay_one_byte_per_turn (ins : list (option u8)) (ct : console_thread) :
  running ct = true ->
  length ins = length (pipe ct) ->
  pipe (mainloop_turns ins ct) = [] /\
  tty (mainloop_turns ins ct) = tty ct ++ pipe ct.
Proof.
  revert ct. induction ins as [|i ins IH]; intros ct Hr Hlen.
  - destruct (pipe ct) eqn:Hp; [|discriminate Hlen].
    simpl. rewrite Hp, app_nil_r. split; reflexivity.
  - destruct (pipe ct) as [|c rest] eqn:Hp; [discriminate Hlen|].
    destruct (mainloop_relays_one i ct c rest Hr Hp) as (Hr' & Hp' & Ht').
    change (mainloop_turns (i :: ins) ct)
      with (mainloop_turns ins (mainloop_iter i ct)).
    destruct (IH (mainloop_iter i ct) Hr') as [H1 H2].
    + rewrite Hp'. simpl in Hlen. lia.
    + rewrite H1, H2, Ht', Hp', <- app_assoc. split; reflexivity.
Qed.

Lemma X18_relay_one_byte_per_turn_witness :
  tty (mainloop_turns [None; Some 0x41]
         (write_char 0x69 (write_char 0x68 console_thread_new))) = [0x68; 0x69].
Proof.
  apply (X18_relay_one_byte_per_turn [None; Some 0x41]
           (write_char 0x69 (write_char 0x68 console_thread_new)));
    reflexivity.
Defined.
